(** * HAWKI exposure-time calculator: the noise model of [etc_module_hmbp.py]

    A shallow embedding of the class [HAWKI_ETC] and of the properties its
    specification states about it.

    Modelling conventions.
    - A [numpy.float64] is a [float64]: a real number or one of the three
      special values of IEEE 754.  Arithmetic on finite values is exact
      (rounding, overflow and the sign of zero are idealised away); the
      special values follow IEEE 754, which is what numpy computes under its
      default error state, where an invalid operation or a division by zero
      emits a [RuntimeWarning] and returns [nan] or an infinity instead of
      raising.  The text of such a warning is not recorded.
    - An [astropy] [Quantity] is a value together with a unit; a unit is a
      vector of integer exponents over the base units the module uses.
      Multiplying, dividing and raising quantities never converts: the value
      of the result is the result on the values.
    - The interpreter state the module touches is a [World]: the bindings of
      [sys.stdout] and [sys.stderr], the text every stream object has
      received, and the calls made to matplotlib.
    - The package [hmbp] is external: its three functions are parameters of
      the development, each returning the diagnostics it prints and either a
      quantity or an exception. *)

From Stdlib Require Import Reals Lra Psatz ZArith List String Bool.
Import ListNotations.

Set Implicit Arguments.

(** ** numpy.float64 *)

Inductive float64 : Type :=
| Fin (x : R)
| PInf
| NInf
| NaN.

Definition inf_of_sign (positive : bool) : float64 :=
  if positive then PInf else NInf.

(** An infinity of sign [positive] times the finite [x]. *)
Definition inf_times (positive : bool) (x : R) : float64 :=
  match total_order_T x 0 with
  | inleft (left _) => inf_of_sign (negb positive)
  | inleft (right _) => NaN
  | inright _ => inf_of_sign positive
  end.

Definition fadd (a b : float64) : float64 :=
  match a, b with
  | NaN, _ | _, NaN => NaN
  | Fin x, Fin y => Fin (x + y)
  | PInf, NInf | NInf, PInf => NaN
  | PInf, _ | _, PInf => PInf
  | NInf, _ | _, NInf => NInf
  end.

Definition fmul (a b : float64) : float64 :=
  match a, b with
  | NaN, _ | _, NaN => NaN
  | Fin x, Fin y => Fin (x * y)
  | Fin x, PInf | PInf, Fin x => inf_times true x
  | Fin x, NInf | NInf, Fin x => inf_times false x
  | PInf, PInf | NInf, NInf => PInf
  | PInf, NInf | NInf, PInf => NInf
  end.

Definition fdiv (a b : float64) : float64 :=
  match a, b with
  | NaN, _ | _, NaN => NaN
  | Fin x, Fin y =>
      if Req_dec_T y 0 then
        match total_order_T x 0 with
        | inleft (left _) => NInf
        | inleft (right _) => NaN
        | inright _ => PInf
        end
      else Fin (x / y)
  | Fin _, (PInf | NInf) => Fin 0
  | PInf, Fin y => if Rlt_dec y 0 then NInf else PInf
  | NInf, Fin y => if Rlt_dec y 0 then PInf else NInf
  | (PInf | NInf), (PInf | NInf) => NaN
  end.

(** [x ** 2] and [x ** 2.0]. *)
Definition fsquare (a : float64) : float64 := fmul a a.

(** [np.sqrt]. *)
Definition fsqrt (a : float64) : float64 :=
  match a with
  | Fin x => if Rlt_dec x 0 then NaN else Fin (sqrt x)
  | PInf => PInf
  | NInf | NaN => NaN
  end.

(** [np.log10]. *)
Definition flog10 (a : float64) : float64 :=
  match a with
  | Fin x =>
      match total_order_T x 0 with
      | inleft (left _) => NaN
      | inleft (right _) => NInf
      | inright _ => Fin (ln x / ln 10)
      end
  | PInf => PInf
  | NInf | NaN => NaN
  end.

(** The comparisons [a <= b] and [a < b]; both are false on [nan]. *)
Definition fle (a b : float64) : Prop :=
  match a, b with
  | NaN, _ | _, NaN => False
  | Fin x, Fin y => (x <= y)%R
  | NInf, _ => True
  | _, PInf => True
  | _, _ => False
  end.

Definition flt (a b : float64) : Prop :=
  match a, b with
  | NaN, _ | _, NaN => False
  | Fin x, Fin y => (x < y)%R
  | NInf, NInf => False
  | NInf, _ => True
  | PInf, _ => False
  | _, PInf => True
  | _, _ => False
  end.


Definition fltb (a b : float64) : bool :=
  match a, b with
  | NaN, _ | _, NaN => false
  | Fin x, Fin y => if Rlt_dec x y then true else false
  | NInf, NInf => false
  | NInf, _ => true
  | PInf, _ => false
  | _, PInf => true
  | _, _ => false
  end.

(** numpy's constant [np.pi]. *)
Definition np_pi : float64 := Fin PI.

(** ** astropy units and quantities *)

Record Unit : Type := mkUnit {
  u_m : Z;
  u_s : Z;
  u_arcsec : Z;
  u_pixel : Z;
  u_electron : Z;
  u_ph : Z;
  u_mag : Z
}.

Definition unit_m : Unit := mkUnit 1 0 0 0 0 0 0.
Definition unit_s : Unit := mkUnit 0 1 0 0 0 0 0.
Definition unit_arcsec : Unit := mkUnit 0 0 1 0 0 0 0.
Definition unit_pixel : Unit := mkUnit 0 0 0 1 0 0 0.
Definition unit_electron : Unit := mkUnit 0 0 0 0 1 0 0.
Definition unit_ph : Unit := mkUnit 0 0 0 0 0 1 0.
Definition unit_mag : Unit := mkUnit 0 0 0 0 0 0 1.

Definition umul (a b : Unit) : Unit :=
  mkUnit (u_m a + u_m b) (u_s a + u_s b) (u_arcsec a + u_arcsec b)
         (u_pixel a + u_pixel b) (u_electron a + u_electron b)
         (u_ph a + u_ph b) (u_mag a + u_mag b).

Definition udiv (a b : Unit) : Unit :=
  mkUnit (u_m a - u_m b) (u_s a - u_s b) (u_arcsec a - u_arcsec b)
         (u_pixel a - u_pixel b) (u_electron a - u_electron b)
         (u_ph a - u_ph b) (u_mag a - u_mag b).

Definition upow2 (a : Unit) : Unit := umul a a.

Record Quantity : Type := mkQuantity {
  value : float64;
  unit : Unit
}.

(** [x * u] for a number [x] and a unit [u]. *)
Definition of_unit (x : float64) (u : Unit) : Quantity := mkQuantity x u.

Definition qmul (a b : Quantity) : Quantity :=
  mkQuantity (fmul (value a) (value b)) (umul (unit a) (unit b)).

Definition qdiv (a b : Quantity) : Quantity :=
  mkQuantity (fdiv (value a) (value b)) (udiv (unit a) (unit b)).

(** A number times a quantity, and a quantity times a number. *)
Definition qscale (x : float64) (a : Quantity) : Quantity :=
  mkQuantity (fmul x (value a)) (unit a).

Definition qscale_r (a : Quantity) (x : float64) : Quantity :=
  mkQuantity (fmul (value a) x) (unit a).

(** A quantity over a bare unit: the value is kept. *)
Definition qdiv_unit (a : Quantity) (u : Unit) : Quantity :=
  mkQuantity (value a) (udiv (unit a) u).

Definition qsquare (a : Quantity) : Quantity :=
  mkQuantity (fsquare (value a)) (upow2 (unit a)).

(** ** Python values, exceptions and the interpreter state *)

Inductive exn : Type :=
| TypeError (msg : string)
| ValueError (msg : string)
| HmbpError (msg : string).

Inductive result (A : Type) : Type :=
| Ok (a : A)
| Raise (e : exn).

Arguments Ok {A} a.
Arguments Raise {A} e.

(** The values a caller passes for [snr], [savefig] and [filename]. *)
Inductive pyval : Type :=
| PyNone
| PyBool (b : bool)
| PyInt (n : Z)
| PyFloat (x : float64)
| PyStr (s : string)
| PyBytes (s : string)
| PyList (l : list float64)
| PyArray (l : list float64).

(** [isinstance(v, str)]. *)
Definition isinstance_str (v : pyval) : bool :=
  match v with PyStr _ => true | _ => false end.

(** [isinstance(v, (float, int, list, np.ndarray))]; [bool] is a subclass
    of [int]. *)
Definition isinstance_number_or_sequence (v : pyval) : bool :=
  match v with
  | PyBool _ | PyInt _ | PyFloat _ | PyList _ | PyArray _ => true
  | PyNone | PyStr _ | PyBytes _ => false
  end.

(** [repr(type(v))], as an f-string prints it. *)
Definition type_repr (v : pyval) : string :=
  match v with
  | PyNone => "<class 'NoneType'>"
  | PyBool _ => "<class 'bool'>"
  | PyInt _ => "<class 'int'>"
  | PyFloat _ => "<class 'float'>"
  | PyStr _ => "<class 'str'>"
  | PyBytes _ => "<class 'bytes'>"
  | PyList _ => "<class 'list'>"
  | PyArray _ => "<class 'numpy.ndarray'>"
  end%string.

Definition float_truth (x : float64) : bool :=
  match x with
  | Fin r => if Req_dec_T r 0 then false else true
  | _ => true
  end.

(** The truth value [if v:] tests; an array of several elements has none. *)
Definition truthy (v : pyval) : result bool :=
  match v with
  | PyNone => Ok false
  | PyBool b => Ok b
  | PyInt n => Ok (negb (Z.eqb n 0))
  | PyFloat x => Ok (float_truth x)
  | PyStr s | PyBytes s => Ok (negb (String.eqb s ""))
  | PyList l => Ok (negb (Nat.eqb (List.length l) 0))
  | PyArray [] => Ok false
  | PyArray [x] => Ok (float_truth x)
  | PyArray _ =>
      Raise (ValueError "The truth value of an array with more than one element is ambiguous.")
  end.

(** A stream object: one of the two the process starts with, or an
    [io.StringIO] buffer. *)
Inductive stream : Type :=
| ProcessStdout
| ProcessStderr
| StringIO (id : nat).

Inductive channel : Type := ToStdout | ToStderr.

Inductive Figure : Type := Fig.

(** The calls made to matplotlib. *)
Inductive event : Type :=
| Subplots
| Scatter (xs ys : list float64)
| Axhline (y : pyval)
| SetXlim (lo hi : float64)
| SetXlabel (s : string)
| SetYlabel (s : string)
| Grid
| SetYscale (s : string)
| SetTitle (s : string)
| Savefig (filename : string)
| ShowPlot.

Record World : Type := mkWorld {
  sys_stdout : stream;
  sys_stderr : stream;
  next_id : nat;
  written : list (stream * string);
  events : list event
}.






(** ** The monad of the methods: state that survives an exception *)

Definition M (A : Type) : Type := World -> result A * World.

Definition ret {A} (a : A) : M A := fun w => (Ok a, w).

Definition raise {A} (e : exn) : M A := fun w => (Raise e, w).

Definition bind {A B} (m : M A) (k : A -> M B) : M B :=
  fun w =>
    match m w with
    | (Ok a, w') => k a w'
    | (Raise e, w') => (Raise e, w')
    end.

Declare Scope py_scope.
Delimit Scope py_scope with py.
Notation "x <- m ;; k" := (bind m (fun x => k))
  (at level 61, m at next level, right associativity) : py_scope.
Notation "m ;; k" := (bind m (fun _ => k))
  (at level 61, right associativity) : py_scope.
Local Open Scope py_scope.

Definition lift_result {A} (r : result A) : M A := fun w => (r, w).

(** [try: body finally: cleanup]. *)
Definition try_finally {A} (body : M A) (cleanup : M Datatypes.unit) : M A :=
  fun w =>
    match body w with
    | (r, w1) =>
        match cleanup w1 with
        | (Ok _, w2) => (r, w2)
        | (Raise e, w2) => (Raise e, w2)
        end
    end.

Fixpoint mapM {A B} (f : A -> M B) (l : list A) : M (list B) :=
  match l with
  | [] => ret []
  | a :: l' => b <- f a ;; bs <- mapM f l' ;; ret (b :: bs)
  end.

Definition get_stdout : M stream := fun w => (Ok (sys_stdout w), w).
Definition get_stderr : M stream := fun w => (Ok (sys_stderr w), w).

Definition set_stdout (s : stream) : M Datatypes.unit :=
  fun w => (Ok tt, mkWorld s (sys_stderr w) (next_id w) (written w) (events w)).

Definition set_stderr (s : stream) : M Datatypes.unit :=
  fun w => (Ok tt, mkWorld (sys_stdout w) s (next_id w) (written w) (events w)).

(** [io.StringIO()]: a fresh, empty buffer. *)
Definition new_StringIO : M stream :=
  fun w => (Ok (StringIO (next_id w)),
            mkWorld (sys_stdout w) (sys_stderr w) (S (next_id w))
                    (written w) (events w)).

Definition bound_stream (c : channel) (w : World) : stream :=
  match c with ToStdout => sys_stdout w | ToStderr => sys_stderr w end.

(** Printing on a channel writes to the stream bound to it at that time. *)
Definition print_on (d : channel * string) (w : World) : World :=
  mkWorld (sys_stdout w) (sys_stderr w) (next_id w)
          (written w ++ [(bound_stream (fst d) w, snd d)]) (events w).

Definition call_matplotlib (e : event) : M Datatypes.unit :=
  fun w => (Ok tt, mkWorld (sys_stdout w) (sys_stderr w) (next_id w)
                           (written w) (events w ++ [e])).

(** What a call into [hmbp] does: it prints diagnostics, then returns a
    quantity or raises. *)
Record reply : Type := mkReply {
  diagnostics : list (channel * string);
  outcome : result Quantity
}.

Definition call_hmbp (r : reply) : M Quantity :=
  fun w => (outcome r, fold_left (fun w' d => print_on d w') (diagnostics r) w).

(** ** The class HAWKI_ETC *)

Record HAWKI_ETC : Type := mkETC {
  exposure_time : Quantity;
  airmass : float64;
  pwv : float64;
  seeing : Quantity;
  telescope_size : Quantity;
  obstruction_factor : float64;
  reflectance_factor : float64;
  efficiency_factor : float64;
  collection_area : Quantity;
  quantum_efficiency : Quantity;
  pixel_scale : Quantity;
  aper : Quantity
}.

Local Open Scope string_scope.
Local Open Scope list_scope.
Local Open Scope R_scope.

(** The object [HAWKI_ETC.__init__] leaves behind: the six arguments
    stored and the derived constants computed from them. *)
Definition new_etc (exposure_time : Quantity) (airmass pwv : float64)
    (seeing : Quantity) (obstruction_factor reflectance_factor : float64)
    : HAWKI_ETC :=
  let telescope_size := qscale np_pi (qsquare (of_unit (Fin 4) unit_m)) in
  let efficiency_factor := fmul obstruction_factor reflectance_factor in
  let collection_area := qscale_r telescope_size efficiency_factor in
  let quantum_efficiency := of_unit (Fin 0.9) (udiv unit_electron unit_ph) in
  let pixel_scale := qdiv_unit (of_unit (Fin 0.106) unit_arcsec) unit_pixel in
  let aper := qscale np_pi (qsquare seeing) in
  mkETC exposure_time airmass pwv seeing telescope_size
        obstruction_factor reflectance_factor efficiency_factor
        collection_area quantum_efficiency pixel_scale aper.

(** [HAWKI_ETC.__init__], as a call that could raise. *)
Definition init (exposure_time : Quantity) (airmass pwv : float64)
    (seeing : Quantity) (obstruction_factor reflectance_factor : float64)
    : M HAWKI_ETC :=
  ret (new_etc exposure_time airmass pwv seeing
               obstruction_factor reflectance_factor).

(** The default arguments of the constructor. *)
Definition default_exposure_time : Quantity := of_unit (Fin 3600) unit_s.
Definition default_airmass : float64 := Fin 2.
Definition default_pwv : float64 := Fin 5.
Definition default_seeing : Quantity := of_unit (Fin 0.8) unit_arcsec.
Definition default_factor : float64 := Fin 1.

(** [HAWKI_ETC()]. *)
Definition default_etc : HAWKI_ETC :=
  new_etc default_exposure_time default_airmass default_pwv default_seeing
          default_factor default_factor.

(** [HAWKI_ETC.dark_current_noise]. *)
Definition dark_current_noise (self : HAWKI_ETC) : Quantity :=
  let n_pix := qdiv (aper self) (qsquare (pixel_scale self)) in
  let dark_current :=
    qdiv_unit (qdiv_unit (of_unit (Fin 0.0125) unit_electron) unit_s)
              (upow2 unit_pixel) in
  let dark_aper := qmul (qmul dark_current n_pix) (exposure_time self) in
  dark_aper.

(** [HAWKI_ETC.read_noise]. *)
Definition read_noise (self : HAWKI_ETC) : Quantity :=
  let n_pix := qdiv (aper self) (qsquare (pixel_scale self)) in
  let read_noise_per_pixel :=
    qdiv_unit (of_unit (Fin 8.5) unit_electron) unit_pixel in
  let squared_read_noise_aper := qmul (qsquare read_noise_per_pixel) n_pix in
  squared_read_noise_aper.

(** [np.arange(start, stop, step)] for a range of [n] elements. *)
Definition np_arange (start step : R) (n : nat) : list float64 :=
  map (fun i => Fin (start + INR i * step)) (seq 0 n).

(** The builtins [min] and [max] on a sequence. *)
Definition py_min (l : list float64) : result float64 :=
  match l with
  | [] => Raise (ValueError "min() arg is an empty sequence")
  | x :: l' => Ok (fold_left (fun m y => if fltb y m then y else m) l' x)
  end.

Definition py_max (l : list float64) : result float64 :=
  match l with
  | [] => Raise (ValueError "max() arg is an empty sequence")
  | x :: l' => Ok (fold_left (fun m y => if fltb m y then y else m) l' x)
  end.

Section Methods.

(** The functions of [hmbp] the class calls. *)
Variable in_skycalc_background : string -> float64 -> float64 -> reply.
Variable for_flux_in_filter : string -> Quantity -> string -> string -> reply.
Variable in_zero_vega_mags : string -> string -> string -> reply.

(** [HAWKI_ETC.sky_noise]. *)
Definition sky_noise (self : HAWKI_ETC) (filter_name : string) : M Quantity :=
  old_stdout <- get_stdout ;;
  old_stderr <- get_stderr ;;
  out_buffer <- new_StringIO ;;
  set_stdout out_buffer ;;
  err_buffer <- new_StringIO ;;
  set_stderr err_buffer ;;
  sky <- try_finally
           (background <- call_hmbp (in_skycalc_background filter_name
                                       (airmass self) (pwv self)) ;;
            ret (qdiv_unit background (upow2 unit_arcsec)))
           (set_stdout old_stdout ;; set_stderr old_stderr) ;;
  let sky_aper :=
    qmul (qmul (qmul (qmul sky (quantum_efficiency self))
                     (exposure_time self))
               (collection_area self))
         (aper self) in
  ret sky_aper.

(** [HAWKI_ETC.compute_sn]. *)
Definition compute_sn (self : HAWKI_ETC) (star_flux : Quantity)
    (filter_name : string) : M float64 :=
  photons <- call_hmbp (for_flux_in_filter filter_name star_flux
                          "HAWKI" "Paranal") ;;
  let signal :=
    qmul (qmul (qmul photons (collection_area self))
               (quantum_efficiency self))
         (exposure_time self) in
  sky <- sky_noise self filter_name ;;
  let total_noise :=
    fsqrt (fadd (fadd (fadd (value signal) (value sky))
                      (value (dark_current_noise self)))
                (value (read_noise self))) in
  let snr_aper := fdiv (value signal) total_noise in
  ret snr_aper.

(** [HAWKI_ETC.flux_to_mag]. *)
Definition flux_to_mag (self : HAWKI_ETC) (flux : float64)
    (zero_point_flux_photon : Quantity) : M float64 :=
  let F0_electron :=
    qmul (qmul (qmul zero_point_flux_photon (collection_area self))
               (quantum_efficiency self))
         (exposure_time self) in
  let magnitude :=
    fmul (Fin (-2.5)) (flog10 (fdiv flux (value F0_electron))) in
  ret magnitude.

(** [HAWKI_ETC.detectable_star_brightness]. *)
Definition detectable_star_brightness (self : HAWKI_ETC)
    (desired_sn : float64) (filter_name : string) : M float64 :=
  sky <- sky_noise self filter_name ;;
  let total_noise :=
    fsqrt (fadd (fadd (value sky) (value (dark_current_noise self)))
                (value (read_noise self))) in
  let required_flux :=
    of_unit (fmul desired_sn total_noise) unit_electron in
  zero_point_flux_photon <-
    call_hmbp (in_zero_vega_mags filter_name "HAWKI" "Paranal") ;;
  mag <- flux_to_mag self (value required_flux) zero_point_flux_photon ;;
  ret mag.

(** The brightnesses [np.arange(26, 8, -0.1)]: ceil((8 - 26) / -0.1),
    that is 180, of them. *)
Definition brightness_list : list float64 := np_arange 26 (-0.1) 180.

(** The list comprehension of [plot] on its own: [compute_sn] on every
    brightness, in the default filter. *)
Definition sweep (self : HAWKI_ETC) : M (list float64) :=
  mapM (fun brightness => compute_sn self (of_unit brightness unit_mag) "Ks")
       brightness_list.

(** The branch [if savefig:] of [plot]. *)
Definition persist (savefig filename : pyval) : M Datatypes.unit :=
  requested <- lift_result (truthy savefig) ;;
  if requested then
    match filename with
    | PyStr name => call_matplotlib (Savefig name)
    | _ =>
        raise (TypeError ("filename has to be a string, "
                          ++ type_repr filename ++ " is given."))
    end
  else ret tt.

(** [HAWKI_ETC.plot]. *)
Definition plot (self : HAWKI_ETC) (snr savefig filename : pyval)
    : M Figure :=
  call_matplotlib Subplots ;;
  snr_aper_list <-
    mapM (fun brightness =>
            compute_sn self (of_unit brightness unit_mag) "Ks")
         brightness_list ;;
  call_matplotlib (Scatter brightness_list snr_aper_list) ;;
  (if isinstance_number_or_sequence snr
   then call_matplotlib (Axhline snr) else ret tt) ;;
  lo <- lift_result (py_min brightness_list) ;;
  hi <- lift_result (py_max brightness_list) ;;
  call_matplotlib (SetXlim lo hi) ;;
  call_matplotlib (SetXlabel "Brightness (Magnitude)") ;;
  call_matplotlib (SetYlabel "SNR") ;;
  call_matplotlib Grid ;;
  call_matplotlib (SetYscale "log") ;;
  call_matplotlib (SetTitle "SNR as a function of Star Brightness") ;;
  persist savefig filename ;;
  call_matplotlib ShowPlot ;;
  ret Fig.

End Methods.


(** ** The formulas of the specification *)

(** signal = photons x collection_area x quantum_efficiency x exposure_time,
    on the numbers. *)
Definition spec_signal (self : HAWKI_ETC) (photons : float64) : float64 :=
  fmul (fmul (fmul photons (value (collection_area self)))
             (value (quantum_efficiency self)))
       (value (exposure_time self)).

(** SNR = signal / sqrt(signal + sky + dark + read). *)
Definition spec_snr (signal sky dark read : float64) : float64 :=
  fdiv signal (fsqrt (fadd (fadd (fadd signal sky) dark) read)).

(** magnitude = -2.5 log10(ratio), with what numpy returns where the
    logarithm has no real value. *)
Definition spec_magnitude (ratio : float64) : float64 :=
  match ratio with
  | Fin r =>
      match total_order_T r 0 with
      | inleft (left _) => NaN
      | inleft (right _) => PInf
      | inright _ => Fin (-2.5 * (ln r / ln 10))
      end
  | PInf => NInf
  | NInf | NaN => NaN
  end.

(** The sky electrons for a background reading, as [sky_noise] computes
    them from what the lookup returns. *)
Definition sky_aper_of (self : HAWKI_ETC) (background : Quantity) : Quantity :=
  qmul (qmul (qmul (qmul (qdiv_unit background (upow2 unit_arcsec))
                         (quantum_efficiency self))
                   (exposure_time self))
             (collection_area self))
       (aper self).

(** The buffer bound to a channel while the lookup of [sky_noise] runs, on a
    world whose next buffer is [n]. *)
Definition buffer_of (n : nat) (c : channel) : stream :=
  match c with ToStdout => StringIO n | ToStderr => StringIO (S n) end.


(** The events a call adds to the ones of the world it started from. *)
Definition new_events (before after : World) : list event :=
  skipn (List.length (events before)) (events after).

(** The calls [plot] makes to matplotlib before it looks at [savefig]. *)
Definition drawing_events (snr : pyval) (ys : list float64) (lo hi : float64)
    : list event :=
  [Subplots; Scatter brightness_list ys]
  ++ (if isinstance_number_or_sequence snr then [Axhline snr] else [])
  ++ [SetXlim lo hi; SetXlabel "Brightness (Magnitude)"; SetYlabel "SNR";
      Grid; SetYscale "log";
      SetTitle "SNR as a function of Star Brightness"].


(** ** The claims of the specification that the code does not meet, as
    propositions *)

(** [flux_to_mag] fails whenever its ratio is not positive. *)
Definition flux_to_mag_fails_on_nonpositive_ratio : Prop :=
  forall (self : HAWKI_ETC) (flux : float64) (zero_point : Quantity) (w : World),
    fle (fdiv flux (spec_signal self (value zero_point))) (Fin 0) ->
    exists e, fst (flux_to_mag self flux zero_point w) = Raise e.






(** ** Worlds and services to run the methods on *)

(** The interpreter at start-up: the process streams bound, nothing printed,
    no buffer allocated, nothing drawn. *)
Definition startup_world : World :=
  mkWorld ProcessStdout ProcessStderr 0 [] [].

Definition photon_flux_unit : Unit :=
  udiv unit_ph (umul unit_s (upow2 unit_m)).

(** A background lookup that warns on both channels and returns 100. *)
Definition warning_background : string -> float64 -> float64 -> reply :=
  fun _ _ _ =>
    mkReply [(ToStderr, "UserWarning: pwv outside the grid");
             (ToStdout, "querying skycalc")]
            (Ok (of_unit (Fin 100) photon_flux_unit)).

(** A background lookup that warns and then fails. *)
Definition failing_background : string -> float64 -> float64 -> reply :=
  fun _ _ _ =>
    mkReply [(ToStderr, "UserWarning: pwv outside the grid")]
            (Raise (HmbpError "unknown filter")).

(** A background lookup that reports a dark sky. *)
Definition zero_background : string -> float64 -> float64 -> reply :=
  fun _ _ _ => mkReply [] (Ok (of_unit (Fin 0) photon_flux_unit)).

(** A flux lookup that returns the same flux for every source. *)
Definition constant_flux (x : R) : string -> Quantity -> string -> string -> reply :=
  fun _ _ _ _ => mkReply [] (Ok (of_unit (Fin x) photon_flux_unit)).



(** ** The script plot_snr.py and what a call lets through *)

Section Scripts.

Variable in_skycalc_background : string -> float64 -> float64 -> reply.
Variable for_flux_in_filter : string -> Quantity -> string -> string -> reply.


End Scripts.


(** Two worlds with the same streams and the same text in them. *)
Definition same_streams (w w' : World) : Prop :=
  sys_stdout w' = sys_stdout w /\ sys_stderr w' = sys_stderr w /\
  next_id w' = next_id w /\ written w' = written w.

(** A flux lookup that fails. *)
Definition failing_flux : string -> Quantity -> string -> string -> reply :=
  fun _ _ _ _ => mkReply [] (Raise (HmbpError "unknown filter")).


(** A default calculator with another exposure time or seeing. *)
Definition etc_with (t s : R) : HAWKI_ETC :=
  new_etc (of_unit (Fin t) unit_s) default_airmass default_pwv
          (of_unit (Fin s) unit_arcsec) default_factor default_factor.







(** The first source of the sweep of [plot]. *)
Definition first_brightness : float64 := Fin (26 + INR 0 * -0.1).

(** ** Arithmetic on finite values *)

Lemma fdiv_fin (x y : R) : y <> 0 -> fdiv (Fin x) (Fin y) = Fin (x / y).
Proof.
  intros Hy. unfold fdiv. destruct (Req_dec_T y 0) as [E | _].
  - contradiction.
  - reflexivity.
Qed.

Lemma fsqrt_fin (x : R) : 0 <= x -> fsqrt (Fin x) = Fin (sqrt x).
Proof.
  intros Hx. unfold fsqrt. destruct (Rlt_dec x 0) as [L | _].
  - lra.
  - reflexivity.
Qed.

Lemma inf_times_negative (b : bool) (x : R) :
  x < 0 -> inf_times b x = inf_of_sign (negb b).
Proof.
  intros Hx. unfold inf_times. destruct (total_order_T x 0) as [[_ | E] | G].
  - reflexivity.
  - lra.
  - lra.
Qed.

(** [-2.5 * np.log10(ratio)] is [spec_magnitude ratio], on every value. *)
Lemma pogson_magnitude (ratio : float64) :
  fmul (Fin (-2.5)) (flog10 ratio) = spec_magnitude ratio.
Proof.
  destruct ratio as [r | | |]; simpl; try reflexivity.
  - destruct (total_order_T r 0) as [[L | E] | G]; simpl.
    + reflexivity.
    + apply inf_times_negative. lra.
    + reflexivity.
  - apply inf_times_negative. lra.
Qed.

(** ** The state left by printing *)

Lemma print_all_world (ds : list (channel * string)) (w : World) :
  fold_left (fun w' d => print_on d w') ds w =
  mkWorld (sys_stdout w) (sys_stderr w) (next_id w)
          (written w ++ map (fun d => (bound_stream (fst d) w, snd d)) ds)
          (events w).
Proof.
  revert w. induction ds as [| d ds IH]; intros w; simpl.
  - rewrite app_nil_r. destruct w; reflexivity.
  - rewrite IH. unfold print_on; simpl. rewrite <- app_assoc. reflexivity.
Qed.

Lemma call_hmbp_run (r : reply) (w : World) :
  call_hmbp r w =
  (outcome r,
   mkWorld (sys_stdout w) (sys_stderr w) (next_id w)
           (written w ++ map (fun d => (bound_stream (fst d) w, snd d))
                             (diagnostics r))
           (events w)).
Proof. unfold call_hmbp. rewrite print_all_world. reflexivity. Qed.

Section MethodFacts.

Variable in_skycalc_background : string -> float64 -> float64 -> reply.
Variable for_flux_in_filter : string -> Quantity -> string -> string -> reply.
Variable in_zero_vega_mags : string -> string -> string -> reply.

(** What [sky_noise] returns and the world it leaves, on every world. *)
Lemma sky_noise_run (self : HAWKI_ETC) (filter_name : string) (w : World) :
  let r := in_skycalc_background filter_name (airmass self) (pwv self) in
  sky_noise in_skycalc_background self filter_name w =
  (match outcome r with
   | Ok background => Ok (sky_aper_of self background)
   | Raise e => Raise e
   end,
   mkWorld (sys_stdout w) (sys_stderr w) (S (S (next_id w)))
           (written w ++
            map (fun d => (buffer_of (next_id w) (fst d), snd d))
                (diagnostics r))
           (events w)).
Proof.
  unfold sky_noise, bind, try_finally, get_stdout, get_stderr,
    new_StringIO, set_stdout, set_stderr, ret, call_hmbp; simpl.
  rewrite print_all_world; simpl.
  destruct (outcome (in_skycalc_background filter_name (airmass self) (pwv self)))
    as [background | e]; reflexivity.
Qed.

Lemma sky_noise_result (self : HAWKI_ETC) (filter_name : string) (w : World) :
  fst (sky_noise in_skycalc_background self filter_name w) =
  match outcome (in_skycalc_background filter_name (airmass self) (pwv self)) with
  | Ok background => Ok (sky_aper_of self background)
  | Raise e => Raise e
  end.
Proof. rewrite sky_noise_run. reflexivity. Qed.

Lemma sky_noise_events (self : HAWKI_ETC) (filter_name : string) (w : World) :
  events (snd (sky_noise in_skycalc_background self filter_name w)) = events w.
Proof. rewrite sky_noise_run. reflexivity. Qed.

(** What [compute_sn] returns, in terms of the replies of the service. *)
Lemma compute_sn_result (self : HAWKI_ETC) (star_flux : Quantity)
    (filter_name : string) (w : World) :
  fst (compute_sn in_skycalc_background for_flux_in_filter self star_flux
         filter_name w) =
  match outcome (for_flux_in_filter filter_name star_flux "HAWKI" "Paranal") with
  | Raise e => Raise e
  | Ok photons =>
      match outcome (in_skycalc_background filter_name (airmass self) (pwv self)) with
      | Raise e => Raise e
      | Ok background =>
          Ok (spec_snr (spec_signal self (value photons))
                       (value (sky_aper_of self background))
                       (value (dark_current_noise self))
                       (value (read_noise self)))
      end
  end.
Proof.
  unfold compute_sn, bind. rewrite call_hmbp_run.
  destruct (outcome (for_flux_in_filter filter_name star_flux "HAWKI" "Paranal"))
    as [photons | e]; [| reflexivity].
  rewrite sky_noise_run; cbv zeta.
  destruct (outcome (in_skycalc_background filter_name (airmass self) (pwv self)))
    as [background | e]; reflexivity.
Qed.

Lemma compute_sn_events (self : HAWKI_ETC) (star_flux : Quantity)
    (filter_name : string) (w : World) :
  events (snd (compute_sn in_skycalc_background for_flux_in_filter self
                 star_flux filter_name w)) = events w.
Proof.
  unfold compute_sn, bind. rewrite call_hmbp_run.
  destruct (outcome (for_flux_in_filter filter_name star_flux "HAWKI" "Paranal"))
    as [photons | e]; [| reflexivity].
  rewrite sky_noise_run; cbv zeta.
  destruct (outcome (in_skycalc_background filter_name (airmass self) (pwv self)))
    as [background | e]; reflexivity.
Qed.

End MethodFacts.

(** ** Construction *)


(** The constructor on a negative exposure time, a zero seeing and an
    airmass below 1. *)
Example init_accepts_unphysical_arguments (w : World) :
  fst (init (of_unit (Fin (-1)) unit_s) (Fin 0.5) (Fin 5)
            (of_unit (Fin 0) unit_arcsec) (Fin 1) (Fin 1) w)
  = Ok (new_etc (of_unit (Fin (-1)) unit_s) (Fin 0.5) (Fin 5)
                (of_unit (Fin 0) unit_arcsec) (Fin 1) (Fin 1)).
Proof. reflexivity. Qed.

(** The units the tests of the repository assert. *)
Example dark_current_noise_unit :
  unit (dark_current_noise default_etc) = unit_electron.
Proof. reflexivity. Qed.

Example read_noise_unit :
  unit (read_noise default_etc) = upow2 unit_electron.
Proof. reflexivity. Qed.

(** ** The signal-to-noise ratio *)

(** C1: [compute_sn] returns signal / sqrt(signal + sky_noise(filter) +
    dark_current_noise() + read_noise()), where signal is the photon flux of
    [for_flux_in_filter] times collection area, quantum efficiency and
    exposure time, and each term enters the sum by its bare value.  An
    exception of the flux lookup or of [sky_noise] is the outcome instead. *)
Theorem compute_sn_formula
    (in_skycalc_background : string -> float64 -> float64 -> reply)
    (for_flux_in_filter : string -> Quantity -> string -> string -> reply)
    (self : HAWKI_ETC) (source_brightness : Quantity) (filter_name : string)
    (w : World) :
  let flux_reply :=
    for_flux_in_filter filter_name source_brightness "HAWKI" "Paranal" in
  fst (compute_sn in_skycalc_background for_flux_in_filter self
         source_brightness filter_name w) =
  match outcome flux_reply with
  | Raise e => Raise e
  | Ok photons =>
      match fst (sky_noise in_skycalc_background self filter_name
                   (snd (call_hmbp flux_reply w))) with
      | Raise e => Raise e
      | Ok sky =>
          let signal := spec_signal self (value photons) in
          Ok (fdiv signal
                (fsqrt (fadd (fadd (fadd signal (value sky))
                                   (value (dark_current_noise self)))
                             (value (read_noise self)))))
      end
  end.
Proof.
  cbv zeta. rewrite compute_sn_result, sky_noise_result.
  destruct (outcome (for_flux_in_filter filter_name source_brightness _ _))
    as [photons | e]; [| reflexivity].
  destruct (outcome (in_skycalc_background filter_name _ _))
    as [background | e]; reflexivity.
Qed.

(** ** Magnitudes *)

Lemma flux_to_mag_run (self : HAWKI_ETC) (flux : float64)
    (zero_point : Quantity) (w : World) :
  flux_to_mag self flux zero_point w =
  (Ok (spec_magnitude (fdiv flux (spec_signal self (value zero_point)))), w).
Proof.
  unfold flux_to_mag, ret. rewrite <- pogson_magnitude. reflexivity.
Qed.

(** The zero-point electrons of one photon s^-1 m^-2 under the default
    configuration. *)
Lemma default_zero_point_electrons :
  spec_signal default_etc (Fin 1) = Fin (1 * (PI * (4 * 4) * (1 * 1)) * 0.9 * 3600).
Proof. reflexivity. Qed.

Lemma default_gain_positive : 0 < 1 * (PI * (4 * 4) * (1 * 1)) * 0.9 * 3600.
Proof. pose proof PI_RGT_0. lra. Qed.

(** C2, as the specification states it, fails: on a zero flux the ratio is
    zero and [flux_to_mag] returns, it raises nothing. *)
Lemma flux_to_mag_returns_on_zero_flux :
  ~ flux_to_mag_fails_on_nonpositive_ratio.
Proof.
  intros claim.
  pose (w0 := mkWorld ProcessStdout ProcessStderr 0 [] []).
  destruct (claim default_etc (Fin 0) (of_unit (Fin 1) (udiv unit_ph (umul unit_s (upow2 unit_m)))) w0)
    as [e He].
  - change (value (of_unit (Fin 1) _)) with (Fin 1).
    rewrite default_zero_point_electrons.
    pose proof default_gain_positive as Hg.
    rewrite fdiv_fin by lra. simpl. unfold Rdiv. lra.
  - rewrite flux_to_mag_run in He. discriminate He.
Qed.

(** What [flux_to_mag] returns there: plus infinity. *)
Example flux_to_mag_of_zero_flux (w : World) :
  fst (flux_to_mag default_etc (Fin 0) (of_unit (Fin 1) unit_ph) w) = Ok PInf.
Proof.
  rewrite flux_to_mag_run.
  change (value (of_unit (Fin 1) _)) with (Fin 1).
  rewrite default_zero_point_electrons.
  pose proof default_gain_positive as Hg.
  rewrite fdiv_fin by lra. simpl.
  destruct (total_order_T (0 / (1 * (PI * (4 * 4) * (1 * 1)) * 0.9 * 3600)) 0)
    as [[L | E] | G].
  - unfold Rdiv in L. lra.
  - reflexivity.
  - unfold Rdiv in G. lra.
Qed.

(** C2, amended: [flux_to_mag] takes F0_electrons = zero_point_flux_photon x
    collection_area x quantum_efficiency x exposure_time and returns
    -2.5 log10(flux_electrons / F0_electrons) when the ratio is positive; it
    never fails: on a zero ratio it returns plus infinity and on a negative
    ratio nan. *)
Theorem flux_to_mag_never_fails
    (self : HAWKI_ETC) (flux_electrons : float64)
    (zero_point_flux_photon : Quantity) (w : World) :
  let F0_electrons :=
    fmul (fmul (fmul (value zero_point_flux_photon)
                     (value (collection_area self)))
               (value (quantum_efficiency self)))
         (value (exposure_time self)) in
  flux_to_mag self flux_electrons zero_point_flux_photon w =
  (Ok (match fdiv flux_electrons F0_electrons with
       | Fin ratio =>
           match total_order_T ratio 0 with
           | inleft (left _) => NaN
           | inleft (right _) => PInf
           | inright _ => Fin (-2.5 * (ln ratio / ln 10))
           end
       | PInf => NInf
       | NInf | NaN => NaN
       end), w).
Proof. cbv zeta. rewrite flux_to_mag_run. reflexivity. Qed.

(** C3: [detectable_star_brightness] takes the noise floor sky_noise(filter)
    + dark_current_noise() + read_noise() with no signal term, the required
    signal desired_sn x sqrt(noise floor), asks the service for the
    zero-point flux of the filter and returns [flux_to_mag] of the required
    signal and that zero point.  An exception of [sky_noise] or of the
    zero-point lookup is the outcome instead. *)
Theorem detectable_star_brightness_formula
    (in_skycalc_background : string -> float64 -> float64 -> reply)
    (in_zero_vega_mags : string -> string -> string -> reply)
    (self : HAWKI_ETC) (desired_sn : float64) (filter_name : string)
    (w : World) :
  fst (detectable_star_brightness in_skycalc_background in_zero_vega_mags
         self desired_sn filter_name w) =
  match fst (sky_noise in_skycalc_background self filter_name w) with
  | Raise e => Raise e
  | Ok sky =>
      let noise_floor_variance :=
        fadd (fadd (value sky) (value (dark_current_noise self)))
             (value (read_noise self)) in
      let required_signal_electrons :=
        fmul desired_sn (fsqrt noise_floor_variance) in
      match outcome (in_zero_vega_mags filter_name "HAWKI" "Paranal") with
      | Raise e => Raise e
      | Ok zero_point =>
          fst (flux_to_mag self required_signal_electrons zero_point w)
      end
  end.
Proof.
  unfold detectable_star_brightness, bind.
  rewrite !sky_noise_run; cbv zeta.
  destruct (outcome (in_skycalc_background filter_name _ _))
    as [background | e]; [| reflexivity].
  cbv beta iota. rewrite call_hmbp_run.
  destruct (outcome (in_zero_vega_mags filter_name _ _))
    as [zero_point | e]; [| reflexivity].
  cbv beta iota. cbn [fst]. rewrite !flux_to_mag_run. reflexivity.
Qed.

(** ** The redirection of the diagnostics in [sky_noise] *)









(** ** The noise terms on finite configurations *)



Lemma pixel_area_positive : 0 < 0.106 * 0.106.
Proof. lra. Qed.

(** The number of pixels in the aperture. *)
Lemma n_pix_value (self : HAWKI_ETC) (a : R) :
  value (aper self) = Fin a ->
  value (pixel_scale self) = Fin 0.106 ->
  value (qdiv (aper self) (qsquare (pixel_scale self)))
  = Fin (a / (0.106 * 0.106)).
Proof.
  intros Ha Hp. unfold qdiv, qsquare; cbn [value].
  rewrite Ha, Hp. cbn [fsquare fmul].
  apply fdiv_fin. pose proof pixel_area_positive. lra.
Qed.

Lemma dark_current_noise_value (self : HAWKI_ETC) (a t : R) :
  value (aper self) = Fin a ->
  value (pixel_scale self) = Fin 0.106 ->
  value (exposure_time self) = Fin t ->
  value (dark_current_noise self) = Fin (0.0125 * (a / (0.106 * 0.106)) * t).
Proof.
  intros Ha Hp Ht. unfold dark_current_noise; cbv zeta.
  unfold qmul at 1 2; cbn [value].
  rewrite (n_pix_value self Ha Hp), Ht. reflexivity.
Qed.

Lemma read_noise_value (self : HAWKI_ETC) (a : R) :
  value (aper self) = Fin a ->
  value (pixel_scale self) = Fin 0.106 ->
  value (read_noise self) = Fin (8.5 * 8.5 * (a / (0.106 * 0.106))).
Proof.
  intros Ha Hp. unfold read_noise; cbv zeta.
  unfold qmul at 1; cbn [value].
  rewrite (n_pix_value self Ha Hp). reflexivity.
Qed.

Lemma sky_aper_value (self : HAWKI_ETC) (background : Quantity)
    (k q t A a : R) :
  value background = Fin k ->
  value (quantum_efficiency self) = Fin q ->
  value (exposure_time self) = Fin t ->
  value (collection_area self) = Fin A ->
  value (aper self) = Fin a ->
  value (sky_aper_of self background) = Fin (k * q * t * A * a).
Proof.
  intros Hk Hq Ht HA Ha. unfold sky_aper_of, qmul, qdiv_unit; cbn [value].
  rewrite Hk, Hq, Ht, HA, Ha. reflexivity.
Qed.



Lemma new_etc_collection_area (et se : Quantity) (am pw : float64) (o r : R) :
  value (collection_area (new_etc et am pw se (Fin o) (Fin r)))
  = Fin (PI * (4 * 4) * (o * r)).
Proof. reflexivity. Qed.



(** ** The seeing and the aperture *)


(** The read noise shrinks with the aperture there. *)
Example larger_seeing_smaller_read_noise :
  flt (value (read_noise (new_etc default_exposure_time default_airmass
                            default_pwv (of_unit (Fin 0.5) unit_arcsec)
                            default_factor default_factor)))
      (value (read_noise (new_etc default_exposure_time default_airmass
                            default_pwv (of_unit (Fin (-1)) unit_arcsec)
                            default_factor default_factor))).
Proof.
  rewrite (@read_noise_value _ (PI * (0.5 * 0.5))) by reflexivity.
  rewrite (@read_noise_value _ (PI * (-1 * -1))) by reflexivity.
  simpl. pose proof PI_RGT_0. lra.
Qed.

(** Within the nonnegative seeings, a dark sky gives the same sky noise,
    zero, under every seeing. *)
Example dark_sky_same_sky_noise (s : R) :
  value (sky_aper_of (new_etc default_exposure_time default_airmass
                        default_pwv (of_unit (Fin s) unit_arcsec)
                        default_factor default_factor)
                     (of_unit (Fin 0) photon_flux_unit)) = Fin 0.
Proof.
  rewrite (@sky_aper_value _ _ 0 0.9 3600 (PI * (4 * 4) * (1 * 1)) (PI * (s * s)))
    by reflexivity.
  f_equal. ring.
Qed.



(** ** Monotonicity of the signal-to-noise ratio *)





















(** ** The plot *)

Lemma skipn_own_length {A} (l l' : list A) :
  skipn (List.length l) (l ++ l') = l'.
Proof. induction l as [| a l IH]; simpl; [reflexivity | exact IH]. Qed.

Lemma mapM_events {A B} (f : A -> M B) :
  (forall a w, events (snd (f a w)) = events w) ->
  forall l w, events (snd (mapM f l w)) = events w.
Proof.
  intros Hf l. induction l as [| a l IH]; intros w.
  - reflexivity.
  - cbn [mapM]. unfold bind at 1.
    specialize (Hf a w). destruct (f a w) as [[b | e] w1]; simpl in Hf.
    + unfold bind. specialize (IH w1).
      destruct (mapM f l w1) as [[bs | e] w2]; simpl in IH |- *; congruence.
    + exact Hf.
Qed.

Lemma mapM_ok {A B} (f : A -> M B) :
  (forall a w, exists b w', f a w = (Ok b, w')) ->
  forall l w, exists bs w', mapM f l w = (Ok bs, w').
Proof.
  intros Hf l. induction l as [| a l IH]; intros w.
  - exists [], w. reflexivity.
  - destruct (Hf a w) as (b & w1 & E1). destruct (IH w1) as (bs & w2 & E2).
    exists (b :: bs), w2. cbn [mapM]. unfold bind. rewrite E1, E2. reflexivity.
Qed.

(** A descending range: its minimum is its last element, its maximum its
    first. *)
Lemma descending_fold_min (start step : R) (n i : nat) :
  step < 0 ->
  fold_left (fun m y => if fltb y m then y else m)
            (map (fun j => Fin (start + INR j * step)) (seq (S i) n))
            (Fin (start + INR i * step))
  = Fin (start + INR (i + n) * step).
Proof.
  intros Hstep. revert i. induction n as [| n IH]; intros i.
  - rewrite Nat.add_0_r. reflexivity.
  - cbn [seq map fold_left fltb].
    destruct (Rlt_dec (start + INR (S i) * step) (start + INR i * step))
      as [_ | N].
    + rewrite IH. rewrite Nat.add_succ_comm. reflexivity.
    + exfalso. apply N. rewrite S_INR. nra.
Qed.

Lemma descending_fold_max (start step : R) (n i k : nat) :
  step < 0 -> (k <= i)%nat ->
  fold_left (fun m y => if fltb m y then y else m)
            (map (fun j => Fin (start + INR j * step)) (seq (S i) n))
            (Fin (start + INR k * step))
  = Fin (start + INR k * step).
Proof.
  intros Hstep. revert i. induction n as [| n IH]; intros i Hk.
  - reflexivity.
  - cbn [seq map fold_left fltb].
    destruct (Rlt_dec (start + INR k * step) (start + INR (S i) * step))
      as [L | _].
    + exfalso. apply le_INR in Hk. rewrite S_INR in L. nra.
    + apply IH. apply Nat.le_trans with i; [exact Hk | apply Nat.le_succ_diag_r].
Qed.

Lemma brightness_list_min :
  py_min brightness_list = Ok (Fin (26 + INR 179 * -0.1)).
Proof.
  unfold brightness_list, np_arange.
  change (seq 0 180) with (0%nat :: seq 1 179). cbn [map py_min].
  rewrite descending_fold_min by lra. reflexivity.
Qed.

Lemma brightness_list_max :
  py_max brightness_list = Ok (Fin (26 + INR 0 * -0.1)).
Proof.
  unfold brightness_list, np_arange.
  change (seq 0 180) with (0%nat :: seq 1 179). cbn [map py_max].
  rewrite descending_fold_max by (lra || apply Nat.le_refl). reflexivity.
Qed.


(** The branch [if savefig:] in its three cases. *)
Lemma persist_not_requested (savefig filename : pyval) :
  truthy savefig = Ok false -> persist savefig filename = ret tt.
Proof. intros H. unfold persist. rewrite H. reflexivity. Qed.



Section PlotFacts.

Variable in_skycalc_background : string -> float64 -> float64 -> reply.
Variable for_flux_in_filter : string -> Quantity -> string -> string -> reply.

Lemma sweep_events (self : HAWKI_ETC) (w : World) :
  events (snd (sweep in_skycalc_background for_flux_in_filter self w))
  = events w.
Proof.
  unfold sweep. apply mapM_events. intros a w'. apply compute_sn_events.
Qed.

(** [plot] once the sweep has returned. *)
Lemma plot_run (self : HAWKI_ETC) (snr savefig filename : pyval) (w : World)
    (ys : list float64) (w1 : World) :
  sweep in_skycalc_background for_flux_in_filter self
        (snd (call_matplotlib Subplots w)) = (Ok ys, w1) ->
  plot in_skycalc_background for_flux_in_filter self snr savefig filename w =
  match persist savefig filename
          (mkWorld (sys_stdout w1) (sys_stderr w1) (next_id w1) (written w1)
             (events w ++
              drawing_events snr ys (Fin (26 + INR 179 * -0.1))
                                    (Fin (26 + INR 0 * -0.1)))) with
  | (Ok _, w3) =>
      (Ok Fig, mkWorld (sys_stdout w3) (sys_stderr w3) (next_id w3)
                       (written w3) (events w3 ++ [ShowPlot]))
  | (Raise e, w3) => (Raise e, w3)
  end.
Proof.
  intros Hsweep.
  pose proof (sweep_events self (snd (call_matplotlib Subplots w))) as Hev.
  rewrite Hsweep in Hev. cbn [snd call_matplotlib events] in Hev.
  cbn [snd call_matplotlib] in Hsweep. unfold sweep in Hsweep.
  unfold plot. unfold bind at 1. cbn [call_matplotlib].
  unfold bind at 1. rewrite Hsweep.
  rewrite brightness_list_min, brightness_list_max.
  unfold drawing_events.
  destruct (isinstance_number_or_sequence snr);
    unfold bind, call_matplotlib, lift_result, ret;
    cbn [events sys_stdout sys_stderr next_id written];
    rewrite Hev; repeat rewrite <- app_assoc; reflexivity.
Qed.

(** A filename that is not a string is never handed to [savefig], whatever
    [savefig] is and whether or not the sweep returns. *)
Lemma plot_saves_under_string_names_only (self : HAWKI_ETC)
    (snr savefig filename : pyval) (w : World) (name : string) :
  isinstance_str filename = false ->
  ~ In (Savefig name)
       (new_events w (snd (plot in_skycalc_background for_flux_in_filter
                                self snr savefig filename w))).
Proof.
  intros Hstr.
  destruct (sweep in_skycalc_background for_flux_in_filter self
              (snd (call_matplotlib Subplots w))) as [[ys | e] w1] eqn:Hsweep.
  - rewrite (plot_run self snr savefig filename w Hsweep).
    unfold persist, bind, lift_result.
    assert (Hdrawn : forall tail, ~ In (Savefig name) tail ->
              ~ In (Savefig name)
                   (drawing_events snr ys (Fin (26 + INR 179 * -0.1))
                                          (Fin (26 + INR 0 * -0.1)) ++ tail)).
    { intros tail Htail Hin. apply in_app_or in Hin.
      destruct Hin as [Hin | Hin]; [| exact (Htail Hin)].
      unfold drawing_events in Hin.
      destruct (isinstance_number_or_sequence snr); simpl in Hin;
        repeat (destruct Hin as [Hin | Hin]; [discriminate Hin |]);
        exact Hin. }
    destruct (truthy savefig) as [[|] | e]; unfold new_events.
    + destruct filename; try discriminate Hstr;
        unfold raise; cbn [snd events];
        rewrite skipn_own_length;
        rewrite <- (app_nil_r (drawing_events _ _ _ _));
        apply Hdrawn; intros [].
    + unfold ret; cbn [snd events]. rewrite <- app_assoc.
      rewrite skipn_own_length. apply Hdrawn.
      intros [Hin | []]. discriminate Hin.
    + cbn [snd events]. rewrite skipn_own_length.
      rewrite <- (app_nil_r (drawing_events _ _ _ _)).
      apply Hdrawn. intros [].
  - pose proof (sweep_events self (snd (call_matplotlib Subplots w))) as Hev.
    rewrite Hsweep in Hev. cbn [snd call_matplotlib events] in Hev.
    cbn [snd call_matplotlib] in Hsweep. unfold sweep in Hsweep.
    unfold plot. unfold bind at 1. cbn [call_matplotlib].
    unfold bind at 1. rewrite Hsweep. unfold new_events. cbn [snd].
    rewrite Hev, skipn_own_length. intros [Hin | []]. discriminate Hin.
Qed.


(** C10: when [plot] is called with [savefig] false, the filename is never
    looked at: the branch [if savefig:] does nothing and raises nothing, and
    the call returns the same result and leaves the same world under every
    filename, string or not. *)
Theorem plot_ignores_filename_when_not_saving (self : HAWKI_ETC)
    (snr savefig : pyval) (w : World) :
  truthy savefig = Ok false ->
  forall filename filename' : pyval,
    persist savefig filename w = (Ok tt, w) /\
    plot in_skycalc_background for_flux_in_filter self snr savefig filename w
    = plot in_skycalc_background for_flux_in_filter self snr savefig filename' w.
Proof.
  intros Hsave filename filename'. split.
  - rewrite persist_not_requested by exact Hsave. reflexivity.
  - unfold plot.
    rewrite (@persist_not_requested savefig filename Hsave).
    rewrite (@persist_not_requested savefig filename' Hsave). reflexivity.
Qed.

End PlotFacts.

(** [compute_sn] returns when both lookups do. *)
Lemma compute_sn_returns
    (in_skycalc_background : string -> float64 -> float64 -> reply)
    (for_flux_in_filter : string -> Quantity -> string -> string -> reply)
    (self : HAWKI_ETC) (star_flux : Quantity) (filter_name : string)
    (w : World) (photons background : Quantity) :
  outcome (for_flux_in_filter filter_name star_flux "HAWKI" "Paranal")
    = Ok photons ->
  outcome (in_skycalc_background filter_name (airmass self) (pwv self))
    = Ok background ->
  exists snr w',
    compute_sn in_skycalc_background for_flux_in_filter self star_flux
               filter_name w = (Ok snr, w').
Proof.
  intros Hp Hb.
  pose proof (compute_sn_result in_skycalc_background for_flux_in_filter
                self star_flux filter_name w) as H.
  destruct (compute_sn in_skycalc_background for_flux_in_filter self
              star_flux filter_name w) as [r w'].
  cbn [fst] in H. rewrite Hp, Hb in H. subst r.
  eexists. exists w'. reflexivity.
Qed.

Lemma sweep_returns (self : HAWKI_ETC) (x : R) (w : World) :
  exists ys w1, sweep zero_background (constant_flux x) self w = (Ok ys, w1).
Proof.
  unfold sweep. apply mapM_ok. intros brightness w'.
  apply compute_sn_returns
    with (photons := of_unit (Fin x) photon_flux_unit)
         (background := of_unit (Fin 0) photon_flux_unit); reflexivity.
Qed.


(** The theorem on the default configuration, with [savefig=False] and the
    filenames 7 and "etc.png". *)
Lemma plot_ignores_filename_when_not_saving_witness :
  truthy (PyBool false) = Ok false /\
  plot zero_background (constant_flux 5) default_etc
       (PyInt 5) (PyBool false) (PyInt 7) startup_world
  = plot zero_background (constant_flux 5) default_etc
         (PyInt 5) (PyBool false) (PyStr "etc.png") startup_world.
Proof.
  split; [reflexivity |].
  exact (proj2 (@plot_ignores_filename_when_not_saving
                  zero_background (constant_flux 5) default_etc
                  (PyInt 5) (PyBool false) startup_world eq_refl
                  (PyInt 7) (PyStr "etc.png"))).
Defined.

(** * Further properties of the module *)

(** ** Pogson's law in [flux_to_mag] *)


(** [flux_to_mag] on a positive flux and a positive zero point. *)
Lemma flux_to_mag_positive (self : HAWKI_ETC) (f F0 : R)
    (zero_point : Quantity) (w : World) :
  spec_signal self (value zero_point) = Fin F0 -> 0 < F0 -> 0 < f ->
  fst (flux_to_mag self (Fin f) zero_point w)
  = Ok (Fin (-2.5 * (ln (f / F0) / ln 10))).
Proof.
  intros HF0 Hpos Hf. rewrite flux_to_mag_run, HF0. cbn [fst].
  rewrite fdiv_fin by lra. unfold spec_magnitude.
  assert (Hr : 0 < f / F0) by (apply Rdiv_lt_0_compat; assumption).
  destruct (total_order_T (f / F0) 0) as [[L | E] | _]; [lra | lra | reflexivity].
Qed.


Lemma default_zero_point_signal :
  spec_signal default_etc (value (of_unit (Fin 1) photon_flux_unit))
  = Fin (1 * (PI * (4 * 4) * (1 * 1)) * 0.9 * 3600).
Proof. reflexivity. Defined.

Lemma default_gain_is_positive : 0 < 1 * (PI * (4 * 4) * (1 * 1)) * 0.9 * 3600.
Proof. pose proof PI_RGT_0. lra. Defined.


(** X2: a flux equal to the zero point in electrons has magnitude 0. *)
Theorem flux_to_mag_of_zero_point (self : HAWKI_ETC) (F0 : R)
    (zero_point : Quantity) (w : World) :
  spec_signal self (value zero_point) = Fin F0 -> 0 < F0 ->
  fst (flux_to_mag self (Fin F0) zero_point w) = Ok (Fin 0).
Proof.
  intros HF0 Hpos.
  rewrite (flux_to_mag_positive self zero_point w HF0 Hpos Hpos).
  do 2 f_equal. replace (F0 / F0) with 1 by (field; lra).
  rewrite ln_1. unfold Rdiv. ring.
Qed.

Lemma flux_to_mag_of_zero_point_witness :
  fst (flux_to_mag default_etc (Fin (1 * (PI * (4 * 4) * (1 * 1)) * 0.9 * 3600))
         (of_unit (Fin 1) photon_flux_unit) startup_world) = Ok (Fin 0).
Proof.
  apply (@flux_to_mag_of_zero_point default_etc _
           (of_unit (Fin 1) photon_flux_unit) startup_world).
  - exact default_zero_point_signal.
  - exact default_gain_is_positive.
Defined.





(** ** The limiting magnitude *)




Section LimitingMagnitude.

Variable in_skycalc_background : string -> float64 -> float64 -> reply.
Variable in_zero_vega_mags : string -> string -> string -> reply.
Variable self : HAWKI_ETC.
Variable filter_name : string.
Variables background zero_point : Quantity.
Variables N F0 : R.

Hypothesis background_returned :
  outcome (in_skycalc_background filter_name (airmass self) (pwv self))
  = Ok background.
Hypothesis noise_floor_finite :
  fadd (fadd (value (sky_aper_of self background))
             (value (dark_current_noise self)))
       (value (read_noise self)) = Fin N.
Hypothesis noise_floor_positive : 0 < N.
Hypothesis zero_point_returned :
  outcome (in_zero_vega_mags filter_name "HAWKI" "Paranal") = Ok zero_point.
Hypothesis zero_point_finite : spec_signal self (value zero_point) = Fin F0.
Hypothesis zero_point_positive : 0 < F0.




End LimitingMagnitude.





(** ** Bounds on the signal-to-noise ratio *)

(** The three noise terms behind a finite noise floor are finite. *)
Lemma finite_noise_floor (sky dark read : float64) (N : R) :
  fadd (fadd sky dark) read = Fin N ->
  exists k d r, sky = Fin k /\ dark = Fin d /\ read = Fin r /\ N = k + d + r.
Proof.
  intros H.
  destruct sky as [k | | |]; destruct dark as [d | | |];
    destruct read as [r | | |]; simpl in H; try discriminate H.
  injection H as <-. exists k, d, r. repeat split; reflexivity.
Qed.


Section SignalToNoiseBounds.

Variable in_skycalc_background : string -> float64 -> float64 -> reply.
Variable for_flux_in_filter : string -> Quantity -> string -> string -> reply.
Variable self : HAWKI_ETC.
Variable star_flux : Quantity.
Variable filter_name : string.
Variables photons background : Quantity.
Variables S N : R.

Hypothesis flux_returned :
  outcome (for_flux_in_filter filter_name star_flux "HAWKI" "Paranal")
  = Ok photons.
Hypothesis background_returned :
  outcome (in_skycalc_background filter_name (airmass self) (pwv self))
  = Ok background.
Hypothesis signal_finite : spec_signal self (value photons) = Fin S.
Hypothesis noise_floor_finite :
  fadd (fadd (value (sky_aper_of self background))
             (value (dark_current_noise self)))
       (value (read_noise self)) = Fin N.



(** X9: a degenerate variance raises nothing.  When signal plus noise floor
    is negative, or when both are zero, [compute_sn] divides by nan or zero
    by zero and returns nan. *)
Theorem compute_sn_of_degenerate_variance (w : World) :
  S + N < 0 \/ (S = 0 /\ N = 0) ->
  fst (compute_sn in_skycalc_background for_flux_in_filter self star_flux
         filter_name w) = Ok NaN.
Proof.
  intros Hdeg.
  rewrite compute_sn_result, flux_returned, background_returned, signal_finite.
  destruct (finite_noise_floor _ _ _ noise_floor_finite)
    as (k & d & r & -> & -> & -> & HNsum).
  unfold spec_snr. cbn [fadd]. f_equal.
  destruct Hdeg as [Hneg | [HS0 HN0]].
  - unfold fsqrt. destruct (Rlt_dec (S + k + d + r) 0) as [_ | NL].
    + reflexivity.
    + exfalso. apply NL. lra.
  - rewrite fsqrt_fin by lra.
    replace (S + k + d + r) with 0 by lra. rewrite sqrt_0.
    unfold fdiv. destruct (Req_dec_T 0 0) as [_ | NE]; [| contradiction].
    destruct (total_order_T S 0) as [[L | _] | G]; [lra | reflexivity | lra].
Qed.

End SignalToNoiseBounds.




Lemma zero_seeing_noise_floor :
  fadd (fadd (value (sky_aper_of (etc_with 3600 0)
                       (of_unit (Fin 100) photon_flux_unit)))
             (value (dark_current_noise (etc_with 3600 0))))
       (value (read_noise (etc_with 3600 0)))
  = Fin (100 * 0.9 * 3600 * (PI * (4 * 4) * (1 * 1)) * (PI * (0 * 0))
         + 0.0125 * (PI * (0 * 0) / (0.106 * 0.106)) * 3600
         + 8.5 * 8.5 * (PI * (0 * 0) / (0.106 * 0.106))).
Proof.
  rewrite (@sky_aper_value (etc_with 3600 0) _ 100 0.9 3600
             (PI * (4 * 4) * (1 * 1)) (PI * (0 * 0))) by reflexivity.
  rewrite (@dark_current_noise_value (etc_with 3600 0) (PI * (0 * 0)) 3600)
    by reflexivity.
  rewrite (@read_noise_value (etc_with 3600 0) (PI * (0 * 0))) by reflexivity.
  reflexivity.
Defined.

(** The theorem on a seeing of 0 and a source without flux: zero over
    zero. *)
Lemma compute_sn_of_degenerate_variance_witness :
  fst (compute_sn warning_background (constant_flux 0) (etc_with 3600 0)
         (of_unit (Fin 20) unit_mag) "Ks" startup_world) = Ok NaN.
Proof.
  apply (@compute_sn_of_degenerate_variance warning_background
           (constant_flux 0) (etc_with 3600 0) (of_unit (Fin 20) unit_mag) "Ks"
           (of_unit (Fin 0) photon_flux_unit)
           (of_unit (Fin 100) photon_flux_unit)
           (0 * (PI * (4 * 4) * (1 * 1)) * 0.9 * 3600) _
           eq_refl eq_refl eq_refl zero_seeing_noise_floor startup_world).
  right. split; lra.
Defined.

(** ** The exposure time *)


Section ExposureTime.

Variable in_skycalc_background : string -> float64 -> float64 -> reply.
Variables am pw : float64.
Variable filter_name : string.
Variable background : Quantity.
Variables k s o r : R.
Variables time_unit seeing_unit : Unit.

Hypothesis background_returned :
  outcome (in_skycalc_background filter_name am pw) = Ok background.
Hypothesis background_finite : value background = Fin k.
Hypothesis background_nonnegative : 0 <= k.
Hypothesis seeing_positive : 0 < s.
Hypothesis efficiency_positive : 0 < o * r.





End ExposureTime.






(** ** What the methods print, and where *)





(** The world [compute_sn] leaves. *)
Lemma compute_sn_world
    (in_skycalc_background : string -> float64 -> float64 -> reply)
    (for_flux_in_filter : string -> Quantity -> string -> string -> reply)
    (self : HAWKI_ETC) (star_flux : Quantity) (filter_name : string)
    (w : World) :
  let flux_reply := for_flux_in_filter filter_name star_flux "HAWKI" "Paranal" in
  let lookup := in_skycalc_background filter_name (airmass self) (pwv self) in
  let printed :=
    map (fun d => (bound_stream (fst d) w, snd d)) (diagnostics flux_reply) in
  snd (compute_sn in_skycalc_background for_flux_in_filter self star_flux
         filter_name w) =
  match outcome flux_reply with
  | Raise _ =>
      mkWorld (sys_stdout w) (sys_stderr w) (next_id w)
              (written w ++ printed) (events w)
  | Ok _ =>
      mkWorld (sys_stdout w) (sys_stderr w) (S (S (next_id w)))
              (written w ++ printed ++
               map (fun d => (buffer_of (next_id w) (fst d), snd d))
                   (diagnostics lookup))
              (events w)
  end.
Proof.
  cbv zeta. unfold compute_sn, bind. rewrite call_hmbp_run.
  destruct (outcome (for_flux_in_filter filter_name star_flux "HAWKI" "Paranal"))
    as [photons | e]; [| reflexivity].
  rewrite sky_noise_run; cbv zeta.
  cbn [sys_stdout sys_stderr next_id written events].
  rewrite <- app_assoc.
  destruct (outcome (in_skycalc_background filter_name (airmass self) (pwv self)))
    as [background | e]; reflexivity.
Qed.




(** X13: the flux lookup comes first.  When it raises, [compute_sn] raises
    its exception, whatever the background lookup would have done, and the
    background lookup is not made: no buffer is allocated and only what the
    flux lookup printed has been written. *)
Theorem compute_sn_stops_at_failed_flux_lookup
    (in_skycalc_background : string -> float64 -> float64 -> reply)
    (for_flux_in_filter : string -> Quantity -> string -> string -> reply)
    (self : HAWKI_ETC) (star_flux : Quantity) (filter_name : string)
    (w : World) (e : exn) :
  outcome (for_flux_in_filter filter_name star_flux "HAWKI" "Paranal")
    = Raise e ->
  let run := compute_sn in_skycalc_background for_flux_in_filter self
               star_flux filter_name w in
  fst run = Raise e /\
  next_id (snd run) = next_id w /\
  written (snd run) =
    written w ++
    map (fun d => (bound_stream (fst d) w, snd d))
        (diagnostics (for_flux_in_filter filter_name star_flux "HAWKI" "Paranal")).
Proof.
  intros He run. subst run.
  rewrite compute_sn_result, compute_sn_world; cbv zeta. rewrite He.
  repeat split; reflexivity.
Qed.

Lemma compute_sn_stops_at_failed_flux_lookup_witness :
  let run := compute_sn failing_background failing_flux default_etc
               (of_unit (Fin 20) unit_mag) "Ks" startup_world in
  fst run = Raise (HmbpError "unknown filter") /\
  next_id (snd run) = 0%nat /\
  written (snd run) = [].
Proof.
  exact (@compute_sn_stops_at_failed_flux_lookup failing_background
           failing_flux default_etc (of_unit (Fin 20) unit_mag) "Ks"
           startup_world (HmbpError "unknown filter") eq_refl).
Defined.




(** ** The streams across [plot] *)











Section PlotStreams.

Variable in_skycalc_background : string -> float64 -> float64 -> reply.
Variable for_flux_in_filter : string -> Quantity -> string -> string -> reply.
Variable self : HAWKI_ETC.


Hypothesis flux_lookup_silent :
  forall brightness,
    diagnostics (for_flux_in_filter "Ks" (of_unit brightness unit_mag)
                                    "HAWKI" "Paranal") = [].


End PlotStreams.






(** ** What [plot] draws and saves *)

Lemma brightness_list_cons :
  exists rest, brightness_list = first_brightness :: rest.
Proof.
  exists (map (fun i => Fin (26 + INR i * -0.1)) (seq 1 179)).
  unfold brightness_list, np_arange, first_brightness.
  change (seq 0 180) with (0%nat :: seq 1 179). reflexivity.
Qed.



Lemma no_savefig_in_drawing (snr : pyval) (ys : list float64)
    (lo hi : float64) (name : string) :
  ~ In (Savefig name) (drawing_events snr ys lo hi).
Proof.
  unfold drawing_events. intros Hin.
  destruct (isinstance_number_or_sequence snr); simpl in Hin;
    repeat (destruct Hin as [Hin | Hin]; [discriminate Hin |]);
    exact Hin.
Qed.

Section PlotEvents.

Variable in_skycalc_background : string -> float64 -> float64 -> reply.
Variable for_flux_in_filter : string -> Quantity -> string -> string -> reply.
Variable self : HAWKI_ETC.

(** [plot] when the sweep raises. *)
Lemma plot_run_failed (snr savefig filename : pyval) (w w1 : World) (e : exn) :
  sweep in_skycalc_background for_flux_in_filter self
        (snd (call_matplotlib Subplots w)) = (Raise e, w1) ->
  fst (plot in_skycalc_background for_flux_in_filter self
            snr savefig filename w) = Raise e /\
  new_events w (snd (plot in_skycalc_background for_flux_in_filter self
                          snr savefig filename w)) = [Subplots].
Proof.
  intros Hsweep.
  pose proof (sweep_events in_skycalc_background for_flux_in_filter self
                (snd (call_matplotlib Subplots w))) as Hev.
  rewrite Hsweep in Hev. cbn [snd call_matplotlib events] in Hev.
  cbn [snd call_matplotlib] in Hsweep. unfold sweep in Hsweep.
  assert (Hplot : plot in_skycalc_background for_flux_in_filter self
                       snr savefig filename w = (Raise e, w1)).
  { unfold plot. unfold bind at 1. cbn [call_matplotlib].
    unfold bind at 1. rewrite Hsweep. reflexivity. }
  rewrite Hplot. cbn [fst snd]. split; [reflexivity |].
  unfold new_events. rewrite Hev. apply skipn_own_length.
Qed.

(** Where a call to [savefig] comes from. *)
Lemma savefig_event_origin (snr savefig filename : pyval) (w : World)
    (name : string) :
  In (Savefig name)
     (new_events w (snd (plot in_skycalc_background for_flux_in_filter self
                              snr savefig filename w))) ->
  truthy savefig = Ok true /\ filename = PyStr name.
Proof.
  destruct (sweep in_skycalc_background for_flux_in_filter self
              (snd (call_matplotlib Subplots w))) as [[ys | e] w1] eqn:Hsweep.
  - rewrite (@plot_run in_skycalc_background for_flux_in_filter self snr savefig
               filename w ys w1 Hsweep).
    unfold persist, bind, lift_result, new_events.
    destruct (truthy savefig) as [[|] | e].
    + destruct filename as [| b | n | x | name' | s | l | l];
        unfold raise, call_matplotlib; cbn [snd events];
        rewrite <- ?app_assoc, skipn_own_length; intros Hin;
        try (exfalso; exact (no_savefig_in_drawing Hin)).
      apply in_app_or in Hin. destruct Hin as [Hin | Hin].
      * exfalso. exact (no_savefig_in_drawing Hin).
      * destruct Hin as [Hin | [Hin | []]]; [| discriminate Hin].
        injection Hin as ->. split; reflexivity.
    + unfold ret; cbn [snd events].
      rewrite <- app_assoc, skipn_own_length. intros Hin.
      apply in_app_or in Hin. destruct Hin as [Hin | [Hin | []]].
      * exfalso. exact (no_savefig_in_drawing Hin).
      * discriminate Hin.
    + cbn [snd events]. rewrite skipn_own_length. intros Hin.
      exfalso. exact (no_savefig_in_drawing Hin).
  - destruct (plot_run_failed snr savefig filename w Hsweep) as [_ Hev].
    rewrite Hev. intros [Hin | []]. discriminate Hin.
Qed.

(** X16: [plot] saves on request only.  A call to [plt.savefig] under a
    name happens only when [savefig] is true and [filename] is that name as a
    string; on every other call, and whenever the sweep raises, nothing is
    saved. *)
Theorem plot_saves_on_request_only (snr savefig filename : pyval) (w : World)
    (name : string) :
  In (Savefig name)
     (new_events w (snd (plot in_skycalc_background for_flux_in_filter self
                              snr savefig filename w))) ->
  truthy savefig = Ok true /\ filename = PyStr name.
Proof. apply savefig_event_origin. Qed.

(** X17: the first failure ends [plot].  When the lookups of the first
    source of the sweep, magnitude 26, fail (the flux lookup, or the
    background lookup after it), [plot] raises that exception having only
    created the figure: nothing is drawn, saved or shown. *)
Theorem plot_stops_at_first_failure (snr savefig filename : pyval) (w : World)
    (e : exn) :
  outcome (for_flux_in_filter "Ks" (of_unit first_brightness unit_mag)
             "HAWKI" "Paranal") = Raise e \/
  ((exists photons,
      outcome (for_flux_in_filter "Ks" (of_unit first_brightness unit_mag)
                 "HAWKI" "Paranal") = Ok photons) /\
   outcome (in_skycalc_background "Ks" (airmass self) (pwv self)) = Raise e) ->
  fst (plot in_skycalc_background for_flux_in_filter self
            snr savefig filename w) = Raise e /\
  new_events w (snd (plot in_skycalc_background for_flux_in_filter self
                          snr savefig filename w)) = [Subplots].
Proof.
  intros Hfail.
  destruct brightness_list_cons as (rest & Hlist).
  assert (Hfirst : forall w',
            fst (compute_sn in_skycalc_background for_flux_in_filter self
                   (of_unit first_brightness unit_mag) "Ks" w') = Raise e).
  { intros w'. rewrite compute_sn_result.
    destruct Hfail as [Hflux | [(photons & Hflux) Hb]].
    - rewrite Hflux. reflexivity.
    - rewrite Hflux, Hb. reflexivity. }
  destruct (sweep in_skycalc_background for_flux_in_filter self
              (snd (call_matplotlib Subplots w))) as [r w1] eqn:Hsweep.
  assert (Hr : r = Raise e).
  { unfold sweep in Hsweep. rewrite Hlist in Hsweep.
    cbn [mapM] in Hsweep. unfold bind at 1 in Hsweep.
    specialize (Hfirst (snd (call_matplotlib Subplots w))).
    destruct (compute_sn in_skycalc_background for_flux_in_filter self
                (of_unit first_brightness unit_mag) "Ks"
                (snd (call_matplotlib Subplots w))) as [r0 w0].
    cbn [fst] in Hfirst. subst r0. injection Hsweep as <- _. reflexivity. }
  subst r. exact (plot_run_failed snr savefig filename w Hsweep).
Qed.


End PlotEvents.

(** [plot] on the default calculator, a dark sky and a constant flux returns
    the figure. *)
Lemma default_plot_run (snr savefig filename : pyval) :
  exists ys w1,
    sweep zero_background (constant_flux 5) default_etc
          (snd (call_matplotlib Subplots startup_world)) = (Ok ys, w1) /\
    plot zero_background (constant_flux 5) default_etc snr savefig filename
         startup_world =
    match persist savefig filename
            (mkWorld (sys_stdout w1) (sys_stderr w1) (next_id w1) (written w1)
               (events startup_world ++
                drawing_events snr ys (Fin (26 + INR 179 * -0.1))
                                      (Fin (26 + INR 0 * -0.1)))) with
    | (Ok _, w3) =>
        (Ok Fig, mkWorld (sys_stdout w3) (sys_stderr w3) (next_id w3)
                         (written w3) (events w3 ++ [ShowPlot]))
    | (Raise e, w3) => (Raise e, w3)
    end.
Proof.
  destruct (sweep_returns default_etc 5
              (snd (call_matplotlib Subplots startup_world)))
    as (ys & w1 & Hsweep).
  exists ys, w1. split; [exact Hsweep |].
  exact (@plot_run zero_background (constant_flux 5) default_etc
           snr savefig filename startup_world ys w1 Hsweep).
Qed.

Lemma plot_saves_on_request_only_witness :
  In (Savefig "etc.png")
     (new_events startup_world
        (snd (plot zero_background (constant_flux 5) default_etc
                   (PyInt 5) (PyBool true) (PyStr "etc.png") startup_world))) /\
  truthy (PyBool true) = Ok true /\ PyStr "etc.png" = PyStr "etc.png".
Proof.
  assert (Hin : In (Savefig "etc.png")
                   (new_events startup_world
                      (snd (plot zero_background (constant_flux 5) default_etc
                                 (PyInt 5) (PyBool true) (PyStr "etc.png")
                                 startup_world)))).
  { destruct (default_plot_run (PyInt 5) (PyBool true) (PyStr "etc.png"))
      as (ys & w1 & _ & Hplot).
    rewrite Hplot. unfold new_events. simpl. right. right. right. right.
    right. right. right. right. right. left. reflexivity. }
  split; [exact Hin |].
  exact (@plot_saves_on_request_only zero_background (constant_flux 5)
           default_etc (PyInt 5) (PyBool true) (PyStr "etc.png")
           startup_world "etc.png" Hin).
Defined.

Lemma plot_stops_at_first_failure_witness :
  fst (plot zero_background failing_flux default_etc
            (PyInt 5) (PyBool true) (PyStr "etc.png") startup_world)
  = Raise (HmbpError "unknown filter") /\
  new_events startup_world
    (snd (plot zero_background failing_flux default_etc
               (PyInt 5) (PyBool true) (PyStr "etc.png") startup_world))
  = [Subplots].
Proof.
  apply (@plot_stops_at_first_failure zero_background failing_flux default_etc
           (PyInt 5) (PyBool true) (PyStr "etc.png") startup_world
           (HmbpError "unknown filter")).
  left. reflexivity.
Defined.


(** ** The script plot_snr.py *)




(** ** Units *)

(** X20: the units the tests of the repository assert hold for every
    configuration given in seconds and arcseconds, whatever the numbers:
    [sky_noise] is in electrons when the service reports the background in
    photons per second and square metre, [dark_current_noise] is in
    electrons and [read_noise] in electrons squared, which is another unit
    than the one of the two terms it is added to in [compute_sn]. *)
Theorem noise_terms_units
    (in_skycalc_background : string -> float64 -> float64 -> reply)
    (t s am pw o r : float64) (filter_name : string) (background : Quantity)
    (w : World) :
  outcome (in_skycalc_background filter_name am pw) = Ok background ->
  unit background = photon_flux_unit ->
  let self := new_etc (of_unit t unit_s) am pw (of_unit s unit_arcsec) o r in
  (exists sky,
     fst (sky_noise in_skycalc_background self filter_name w) = Ok sky /\
     unit sky = unit_electron) /\
  unit (dark_current_noise self) = unit_electron /\
  unit (read_noise self) = upow2 unit_electron /\
  unit (read_noise self) <> unit (dark_current_noise self).
Proof.
  intros Hlookup Hunit self.
  split; [| split; [| split]].
  - exists (sky_aper_of self background). split.
    + rewrite sky_noise_result. change (airmass self) with am.
      change (pwv self) with pw. rewrite Hlookup. reflexivity.
    + unfold sky_aper_of, qmul, qdiv_unit; cbn [unit]. rewrite Hunit.
      reflexivity.
  - reflexivity.
  - reflexivity.
  - intros Habs. discriminate Habs.
Qed.

Lemma noise_terms_units_witness :
  (exists sky,
     fst (sky_noise warning_background default_etc "Ks" startup_world) = Ok sky /\
     unit sky = unit_electron) /\
  unit (dark_current_noise default_etc) = unit_electron /\
  unit (read_noise default_etc) = upow2 unit_electron /\
  unit (read_noise default_etc) <> unit (dark_current_noise default_etc).
Proof.
  exact (@noise_terms_units warning_background (Fin 3600) (Fin 0.8)
           default_airmass default_pwv default_factor default_factor "Ks"
           (of_unit (Fin 100) photon_flux_unit) startup_world
           eq_refl eq_refl).
Defined.

(** ** The seeing and the limiting magnitude *)


